(** * The OpenAI completion wrapper and the natbot chain

    A shallow embedding of [langchain/llms/openai.py] (the pydantic model
    [OpenAI], its root validator [validate_environment], [_default_params]
    and [__call__]) and of the test double [FakeLLM] and the two tests of
    [tests/unit_tests/chains/test_natbot.py], together with the properties
    the specification states about them.

    Python values are modelled by [pyval]; [int] is [Z], [float] is a
    binary64 primitive float, [str] is [string], a [dict] with string keys
    is a [gmap string pyval].  Effects (reading [os.environ], importing
    [openai], the remote [create] call) are threaded through a state and
    exception monad [M] over a [World] that records every effect in a log. *)

From Stdlib Require Import ZArith List String Ascii Lia.
From Stdlib Require Import Floats.PrimFloat.
From stdpp Require Import base option list gmap sets strings sorting.

Local Open Scope Z_scope.
Local Open Scope string_scope.
Set Warnings "-register-all".
(* [0.7] denotes the nearest binary64 value, as the Python literal does *)
Set Warnings "-inexact-float".

(** ** Python values *)

Inductive pyval : Type :=
| VNone
| VBool (b : bool)
| VInt (z : Z)
| VFloat (f : float)
| VStr (s : string)
| VList (l : list pyval)
| VDict (d : gmap string pyval)
| VCompletion.                    (* the class object [openai.Completion] *)

(** [len(s)] of a Python [str]. *)
Definition len (s : string) : Z := Z.of_nat (String.length s).

(** ** Exceptions *)

(** One entry of a pydantic [ValidationError]. *)
Inductive ErrorWrapper : Type :=
| FieldError (loc : string) (type_name : string)  (* StrError, FloatError, IntegerError *)
| ExtraError (loc : string)                       (* extra fields not permitted *)
| RootError (msg : string).                       (* ValueError raised by a root validator *)

Inductive exn : Type :=
| ValueError (msg : string)
| ValidationError (errors : list ErrorWrapper)
| KeyError (key : string)
| IndexError
| TypeError
| AttributeError (name : string)
| APIError (msg : string).        (* whatever [openai.Completion.create] raises *)

Inductive result (A : Type) : Type :=
| Ok (a : A)
| Raise (e : exn).
Arguments Ok {A} a.
Arguments Raise {A} e.

(** ** The world: environment, installed packages, remote service, log *)

Inductive Event : Type :=
| EnvironRead (name : string)             (* [name in os.environ] *)
| ImportModule (module : string)          (* [import module] *)
| Create (kwargs : gmap string pyval).    (* a call of [openai.Completion.create] *)

Record World : Type := mkWorld {
  environ : gmap string string;
  openai_installed : bool;
  (* the remote service: its answer may depend on everything done so far *)
  service : list Event -> gmap string pyval -> result pyval;
  log : list Event
}.

Definition record (ev : Event) (w : World) : World :=
  {| environ := environ w;
     openai_installed := openai_installed w;
     service := service w;
     log := (log w ++ [ev])%list |}.

(** ** The monad of effectful Python code *)

Definition M (A : Type) : Type := World -> result A * World.

Definition ret {A} (a : A) : M A := fun w => (Ok a, w).

Definition raise {A} (e : exn) : M A := fun w => (Raise e, w).

Definition bind {A B} (m : M A) (k : A -> M B) : M B :=
  fun w =>
    match m w with
    | (Ok a, w') => k a w'
    | (Raise e, w') => (Raise e, w')
    end.

Notation "x <- m ;; k" := (bind m (fun x => k))
  (at level 100, m at next level, right associativity).

Definition lift {A} (r : result A) : M A := fun w => (r, w).

(** [name in os.environ] *)
Definition environ_contains (name : string) : M bool :=
  fun w => (Ok (bool_decide (is_Some (environ w !! name))), record (EnvironRead name) w).

(** [import openai]: [true] when the package is there, [false] for
    [ImportError]. *)
Definition import_openai : M bool :=
  fun w => (Ok (openai_installed w), record (ImportModule "openai") w).

(** [openai.Completion.create] with keyword arguments [kwargs] *)
Definition Completion_create (kwargs : gmap string pyval) : M pyval :=
  fun w => (service w (log w) kwargs, record (Create kwargs) w).


(** ** Subscripting, as far as [__call__] needs it *)

(** [o[key]] for a string key. *)
Definition getitem (o : pyval) (key : string) : result pyval :=
  match o with
  | VDict d => match d !! key with
               | Some v => Ok v
               | None => Raise (KeyError key)
               end
  | _ => Raise TypeError
  end.

(** [o[0]] *)
Definition getitem0 (o : pyval) : result pyval :=
  match o with
  | VList l => match l with
               | v :: _ => Ok v
               | [] => Raise IndexError
               end
  | VStr s => match s with
              | String c _ => Ok (VStr (String c EmptyString))
              | EmptyString => Raise IndexError
              end
  | VDict _ => Raise (KeyError "0")
  | _ => Raise TypeError
  end.

(** ** pydantic: field validation of a [BaseModel] *)

(** The per-type validators of pydantic ([str_validator],
    [float_validator], [int_validator]) belong to the library, not to this
    repository: they are taken as a parameter.  [None] is a validation
    error. *)
Class Validators : Type := {
  str_validator : pyval -> option string;
  float_validator : pyval -> option float;
  int_validator : pyval -> option Z
}.

(** The validators restricted to values that already have the type of the
    field, which pydantic returns as they are. *)
Definition exact_validators : Validators :=
  {| str_validator := fun v => match v with VStr s => Some s | _ => None end;
     float_validator := fun v => match v with VFloat f => Some f | _ => None end;
     int_validator := fun v => match v with VInt z => Some z | _ => None end |}.

(** The declared fields of [OpenAI], in declaration order. *)
Definition fields : list string :=
  ["client"; "model_name"; "temperature"; "max_tokens"; "top_p";
   "frequency_penalty"; "presence_penalty"; "n"; "best_of"].

(** An instance of the model [OpenAI]. *)
Record OpenAI : Type := mkOpenAI {
  client : pyval;
  model_name : string;
  temperature : float;
  max_tokens : Z;
  top_p : Z;
  frequency_penalty : Z;
  presence_penalty : Z;
  n : Z;
  best_of : Z
}.

(** The [values] dictionary of [validate_model]: a field is absent when its
    validation failed. *)
Record Values : Type := mkValues {
  v_client : option pyval;
  v_model_name : option string;
  v_temperature : option float;
  v_max_tokens : option Z;
  v_top_p : option Z;
  v_frequency_penalty : option Z;
  v_presence_penalty : option Z;
  v_n : option Z;
  v_best_of : option Z
}.

(** One field of [validate_model]'s loop: a field that is not supplied takes
    its default without validation; a supplied one goes through the
    validator of its type. *)
Definition validate_field {T} (name type_name : string) (validator : pyval -> option T)
    (default : T) (input_data : gmap string pyval) : option T * list ErrorWrapper :=
  match input_data !! name with
  | None => (Some default, [])
  | Some v => match validator v with
              | Some t => (Some t, [])
              | None => (None, [FieldError name type_name])
              end
  end.

(** [sorted(extra)]: the supplied names that are not fields. *)
Definition extra_fields (input_data : gmap string pyval) : list string :=
  merge_sort (fun a b => Is_true (String.leb a b))
    (elements (dom input_data ∖ list_to_set fields : gset string)).

(** ** [OpenAI.validate_environment] *)

Definition set_client (values : Values) (c : pyval) : Values :=
  {| v_client := Some c;
     v_model_name := v_model_name values;
     v_temperature := v_temperature values;
     v_max_tokens := v_max_tokens values;
     v_top_p := v_top_p values;
     v_frequency_penalty := v_frequency_penalty values;
     v_presence_penalty := v_presence_penalty values;
     v_n := v_n values;
     v_best_of := v_best_of values |}.

Definition missing_key_message : string :=
  "Did not find OpenAI API key, please add an environment variable `OPENAI_API_KEY` which contains it.".

Definition missing_package_message : string :=
  "Could not import openai python package. Please it install it with `pip install openai`.".

Definition validate_environment (values : Values) : M Values :=
  present <- environ_contains "OPENAI_API_KEY" ;;
  if negb present then raise (ValueError missing_key_message)
  else
    imported <- import_openai ;;
    if imported then ret (set_client values VCompletion)
    else raise (ValueError missing_package_message).

(** ** pydantic: [validate_model] and [BaseModel.__init__] for [OpenAI] *)

Section Construction.
Context {V : Validators}.

(** The loop over the fields.  [client: Any] has no validator and defaults
    to [None]. *)
Definition validate_fields (input_data : gmap string pyval) : Values * list ErrorWrapper :=
  let c := Some (default VNone (input_data !! "client")) in
  let '(m, e1) := validate_field "model_name" "str" str_validator "text-davinci-002" input_data in
  let '(t, e2) := validate_field "temperature" "float" float_validator 0.7%float input_data in
  let '(mt, e3) := validate_field "max_tokens" "integer" int_validator 256 input_data in
  let '(tp, e4) := validate_field "top_p" "integer" int_validator 1 input_data in
  let '(fp, e5) := validate_field "frequency_penalty" "integer" int_validator 0 input_data in
  let '(pp, e6) := validate_field "presence_penalty" "integer" int_validator 0 input_data in
  let '(n_, e7) := validate_field "n" "integer" int_validator 1 input_data in
  let '(bo, e8) := validate_field "best_of" "integer" int_validator 1 input_data in
  (mkValues c m t mt tp fp pp n_ bo, (e1 ++ e2 ++ e3 ++ e4 ++ e5 ++ e6 ++ e7 ++ e8)%list).

(** [validate_model]: the fields, then the check for extra fields
    ([Config.extra = Extra.forbid]), then the root validator, which was
    registered by [@root_validator()] (not [pre], no [skip_on_failure]) and
    so runs after the fields whether or not errors were found.  A
    [ValueError] or [TypeError] of the root validator is collected with the
    other errors. *)
Definition validate_model (input_data : gmap string pyval) : M (Values * list ErrorWrapper) :=
  let '(values, field_errors) := validate_fields input_data in
  let errors := (field_errors ++ map ExtraError (extra_fields input_data))%list in
  fun w =>
    match validate_environment values w with
    | (Ok values', w') => (Ok (values', errors), w')
    | (Raise (ValueError msg), w') => (Ok (values, (errors ++ [RootError msg])%list), w')
    | (Raise TypeError, w') => (Ok (values, (errors ++ [RootError ""])%list), w')
    | (Raise e, w') => (Raise e, w')
    end.

(** The errors collected before the root validator runs. *)
Definition collected (input_data : gmap string pyval) : list ErrorWrapper :=
  (snd (validate_fields input_data) ++ map ExtraError (extra_fields input_data))%list.

(** The object whose [__dict__] is [values]. *)
Definition from_values (values : Values) : option OpenAI :=
  c ← v_client values; m ← v_model_name values; t ← v_temperature values;
  mt ← v_max_tokens values; tp ← v_top_p values; fp ← v_frequency_penalty values;
  pp ← v_presence_penalty values; n_ ← v_n values; bo ← v_best_of values;
  Some (mkOpenAI c m t mt tp fp pp n_ bo).

(** Construction, [OpenAI(...)] with keyword arguments [kwargs]:
    [BaseModel.__init__] raises the collected errors or builds the object. *)
Definition OpenAI_init (kwargs : gmap string pyval) : M OpenAI :=
  r <- validate_model kwargs ;;
  match snd r, from_values (fst r) with
  | [], Some self => ret self
  | errors, _ => raise (ValidationError errors)
  end.

End Construction.

(** ** [OpenAI._default_params] and [OpenAI.__call__] *)

Definition _default_params (self : OpenAI) : gmap string pyval :=
  {[ "temperature" := VFloat (temperature self);
     "max_tokens" := VInt (max_tokens self);
     "top_p" := VInt (top_p self);
     "frequency_penalty" := VInt (frequency_penalty self);
     "presence_penalty" := VInt (presence_penalty self);
     "n" := VInt (n self);
     "best_of" := VInt (best_of self) ]}.

(** [stop: Optional[List[str]]] as a value. *)
Definition stop_value (stop : option (list string)) : pyval :=
  match stop with
  | None => VNone
  | Some l => VList (map VStr l)
  end.

(** The keyword arguments of the call of [create]. *)
Definition create_kwargs (self : OpenAI) (prompt : string) (stop : option (list string))
    : gmap string pyval :=
  <["model" := VStr (model_name self)]>
    (<["prompt" := VStr prompt]>
      (<["stop" := stop_value stop]> (_default_params self))).

(** [c.create(...)]: only [openai.Completion] has the attribute. *)
Definition client_create (c : pyval) (kwargs : gmap string pyval) : M pyval :=
  match c with
  | VCompletion => Completion_create kwargs
  | _ => raise (AttributeError "create")
  end.

Definition OpenAI_call (self : OpenAI) (prompt : string) (stop : option (list string)) : M pyval :=
  response <- client_create (client self) (create_kwargs self prompt stop) ;;
  choices <- lift (getitem response "choices") ;;
  first <- lift (getitem0 choices) ;;
  lift (getitem first "text").

(** ** The interface [LLM] and the test double [FakeLLM] *)

Class LLM (T : Type) : Type := {
  call : T -> string -> option (list string) -> M pyval
}.

#[export] Instance OpenAI_LLM : LLM OpenAI := {| call := OpenAI_call |}.

Inductive FakeLLM : Type := mkFakeLLM.

Definition FakeLLM_call (self : FakeLLM) (prompt : string) (stop : option (list string)) : M pyval :=
  if (10000 <? len prompt)%Z then ret (VStr "foo") else ret (VStr "bar").

#[export] Instance FakeLLM_LLM : LLM FakeLLM := {| call := FakeLLM_call |}.

(** ** Strings of the test file *)

(** [s * k], as in ["foo" * 10000]. *)
Definition str_mul (s : string) (k : Z) : string :=
  Nat.iter (Z.to_nat k) (String.append s) "".

(** [s[:k]] for a non-negative [k]. *)
Definition str_prefix (k : Z) (s : string) : string :=
  substring 0 (Z.to_nat k) s.

(** ** The chain of the test file

    [NatBotChain] (the specification's BoundedPromptChain) is imported by
    the test file from [langchain.chains.natbot.base], which is not part of
    the sources at hand: what is known of it is how the tests construct it,
    how they call [run], and what they require of the result. *)

(** Modelled from the spec: the attributes of the chain are a reference to
    a prompt-completion capability, an objective and three key names; the
    constructor keywords are those of the test file. *)
Record NatBotChain (T : Type) : Type := mkNatBotChain {
  llm : T;
  objective : string;
  input_url_key : string;
  input_browser_content_key : string;
  output_key : string
}.
Arguments mkNatBotChain {T} _ _ _ _ _.
Arguments llm {T} _.
Arguments objective {T} _.
Arguments input_url_key {T} _.
Arguments input_browser_content_key {T} _.
Arguments output_key {T} _.

(** Modelled from the spec: the default key names are "url",
    "browser_content" and "response". *)
Definition NatBotChain_default {T} (l : T) (obj : string) : NatBotChain T :=
  mkNatBotChain l obj "url" "browser_content" "response".

(** [v == s] for a [str] [s]: of the values at hand only a [str] of the
    same characters is equal to it. *)
Definition eq_str (v : pyval) (s : string) : bool :=
  match v with
  | VStr t => bool_decide (t = s)
  | _ => false
  end.

(** [part in s] for two strings. *)
Definition occurs_in (part s : string) : Prop :=
  exists pre post, s = (pre ++ part ++ post)%string.

(** The two tests.  [run] stands for [NatBotChain.run], whose code is not
    in the sources; the result of a test is whether its assertion
    holds. *)
Section Tests.
Variable run : NatBotChain FakeLLM -> string -> string -> M pyval.

Definition test_proper_inputs : M bool :=
  let nat_bot_chain := NatBotChain_default mkFakeLLM "testing" in
  let url := str_mul "foo" 10000 in
  let browser_content := str_mul "foo" 10000 in
  output <- run nat_bot_chain url browser_content ;;
  ret (eq_str output "bar").

Definition test_variable_key_naming : M bool :=
  let nat_bot_chain := mkNatBotChain mkFakeLLM "testing" "u" "b" "c" in
  output <- run nat_bot_chain "foo" "foo" ;;
  ret (eq_str output "bar").

End Tests.

(** ** Worlds and data of the examples *)

Definition echo_service (history : list Event) (kwargs : gmap string pyval) : result pyval :=
  Ok (VDict {[ "choices" :=
     VList [VDict {[ "text" := default VNone (kwargs !! "prompt") ]};
            VDict {[ "text" := VStr "second choice" ]}] ]}).

(** The key is set and the package installed. *)
Definition world_ok : World :=
  {| environ := {[ "OPENAI_API_KEY" := "sk-test" ]};
     openai_installed := true;
     service := echo_service;
     log := [] |}.

(** The key is not set. *)
Definition world_no_key : World :=
  {| environ := ∅;
     openai_installed := true;
     service := echo_service;
     log := [] |}.

(** Several calls of one object one after the other, whatever each
    returns or raises. *)
Fixpoint call_many (self : OpenAI) (requests : list (string * option (list string)))
    (w : World) : World :=
  match requests with
  | [] => w
  | (prompt, stop) :: rest => call_many self rest (snd (OpenAI_call self prompt stop w))
  end.

(** The ten names [__call__] passes to [create]. *)
Definition forwarded_names : gset string :=
  {[ "model"; "prompt"; "stop"; "temperature"; "max_tokens"; "top_p";
     "frequency_penalty"; "presence_penalty"; "n"; "best_of" ]}.

(** ** Notions used to describe construction and use *)

(** A supplied value for the field [name] is accepted by the validator of
    the field's type (a field that is not supplied has nothing to
    accept). *)
Definition accepts {T} (validator : pyval -> option T) (name : string)
    (kwargs : gmap string pyval) : bool :=
  match kwargs !! name with
  | None => true
  | Some v => match validator v with
              | Some _ => true
              | None => false
              end
  end.

(** Every supplied value of a typed field is accepted. *)
Definition fields_accepted {V : Validators} (kwargs : gmap string pyval) : bool :=
  accepts str_validator "model_name" kwargs
  && accepts float_validator "temperature" kwargs
  && accepts int_validator "max_tokens" kwargs
  && accepts int_validator "top_p" kwargs
  && accepts int_validator "frequency_penalty" kwargs
  && accepts int_validator "presence_penalty" kwargs
  && accepts int_validator "n" kwargs
  && accepts int_validator "best_of" kwargs.

(** Only declared fields are supplied. *)
Definition no_extra (kwargs : gmap string pyval) : Prop :=
  dom kwargs ⊆ (list_to_set fields : gset string).

(** The use shown in the docstrings: construct the object, then call it. *)
Definition construct_then_call {V : Validators} (kwargs : gmap string pyval)
    (prompt : string) (stop : option (list string)) : M pyval :=
  self <- OpenAI_init kwargs ;;
  OpenAI_call self prompt stop.

(** The effects of a construction: the environment is read, and [openai]
    is imported when the key is there. *)
Definition construction_events (w : World) : list Event :=
  EnvironRead "OPENAI_API_KEY" ::
  if bool_decide (is_Some (environ w !! "OPENAI_API_KEY"))
  then [ImportModule "openai"] else [].

(** What a request holds under a name, for the field it comes from: the
    default of the field when the field was not supplied, and otherwise
    what the validator of the field made of the supplied value. *)
Definition sent {T} (validator : pyval -> option T) (to_value : T -> pyval) (dflt : T)
    (field : string) (kwargs : gmap string pyval) (sent_value : option pyval) : Prop :=
  match kwargs !! field with
  | None => sent_value = Some (to_value dflt)
  | Some v => exists t, validator v = Some t /\ sent_value = Some (to_value t)
  end.

(** The errors of the root validator in a world. *)
Definition root_errors (w : World) : list ErrorWrapper :=
  match environ w !! "OPENAI_API_KEY" with
  | None => [RootError missing_key_message]
  | Some _ => if openai_installed w then [] else [RootError missing_package_message]
  end.

(** The world after a construction, successful or not. *)
Definition after_construction (w : World) : World :=
  match environ w !! "OPENAI_API_KEY" with
  | None => record (EnvironRead "OPENAI_API_KEY") w
  | Some _ => record (ImportModule "openai") (record (EnvironRead "OPENAI_API_KEY") w)
  end.

(** A service that answers with an empty list of choices. *)
Definition no_choice_service (history : list Event) (kwargs : gmap string pyval)
    : result pyval :=
  Ok (VDict {[ "choices" := VList [] ]}).

Definition world_no_choice : World :=
  {| environ := {[ "OPENAI_API_KEY" := "sk-test" ]};
     openai_installed := true;
     service := no_choice_service;
     log := [] |}.

(** The key is set to the empty string. *)
Definition world_empty_key : World :=
  {| environ := {[ "OPENAI_API_KEY" := "" ]};
     openai_installed := true;
     service := echo_service;
     log := [] |}.

(** The key is set, the package is not installed. *)
Definition world_no_package : World :=
  {| environ := {[ "OPENAI_API_KEY" := "sk-test" ]};
     openai_installed := false;
     service := echo_service;
     log := [] |}.

(** * Properties *)

(** ** Construction *)

Section ConstructionFacts.
Context {V : Validators}.

Lemma record_log ev w : log (record ev w) = (log w ++ [ev])%list.
Proof. reflexivity. Qed.

Lemma record_environ ev w : environ (record ev w) = environ w.
Proof. reflexivity. Qed.

(** What the root validator does when the key is not set. *)
Lemma validate_environment_no_key values w :
  environ w !! "OPENAI_API_KEY" = None ->
  validate_environment values w
  = (Raise (ValueError missing_key_message), record (EnvironRead "OPENAI_API_KEY") w).
Proof.
  intros Hkey. unfold validate_environment, bind, environ_contains.
  rewrite Hkey. rewrite bool_decide_eq_false_2 by (intros [x Hx]; discriminate).
  reflexivity.
Qed.

(** What the root validator does when the key is set. *)
Lemma validate_environment_key values w key :
  environ w !! "OPENAI_API_KEY" = Some key ->
  validate_environment values w
  = (if openai_installed w then Ok (set_client values VCompletion)
     else Raise (ValueError missing_package_message),
     record (ImportModule "openai") (record (EnvironRead "OPENAI_API_KEY") w)).
Proof.
  intros Hkey. unfold validate_environment, bind, environ_contains.
  rewrite Hkey. rewrite bool_decide_eq_true_2 by eauto.
  cbn. destruct (openai_installed w); reflexivity.
Qed.

(** [BaseModel.__init__] raises as soon as one error was collected. *)
Lemma init_raises_on_errors (kwargs : gmap string pyval) w values errors w' :
  validate_model kwargs w = (Ok (values, errors), w') ->
  errors <> [] ->
  OpenAI_init kwargs w = (Raise (ValidationError errors), w').
Proof.
  intros Hvm Hne. unfold OpenAI_init, bind. rewrite Hvm. cbn.
  destruct errors as [|e errors]; [congruence|]. reflexivity.
Qed.

(** A supplied name that is not a field is reported by the check for
    extra fields. *)
Lemma extra_fields_spec (kwargs : gmap string pyval) (k : string) :
  k ∈ extra_fields kwargs <-> is_Some (kwargs !! k) /\ k ∉ fields.
Proof.
  unfold extra_fields. rewrite merge_sort_Permutation.
  rewrite elem_of_elements, elem_of_difference, elem_of_dom, elem_of_list_to_set.
  reflexivity.
Qed.

End ConstructionFacts.

Section MissingCredential.
Context {V : Validators}.

Lemma validate_model_no_key kwargs w :
  environ w !! "OPENAI_API_KEY" = None ->
  validate_model kwargs w
  = (Ok (fst (validate_fields kwargs),
         (collected kwargs ++ [RootError missing_key_message])%list),
     record (EnvironRead "OPENAI_API_KEY") w).
Proof.
  intros Hkey. unfold validate_model, collected.
  destruct (validate_fields kwargs) as [values field_errors]. cbn [fst snd].
  rewrite (validate_environment_no_key _ _ Hkey). reflexivity.
Qed.

Lemma validate_model_key kwargs w key :
  environ w !! "OPENAI_API_KEY" = Some key ->
  validate_model kwargs w
  = (if openai_installed w
     then Ok (set_client (fst (validate_fields kwargs)) VCompletion, collected kwargs)
     else Ok (fst (validate_fields kwargs),
              (collected kwargs ++ [RootError missing_package_message])%list),
     record (ImportModule "openai") (record (EnvironRead "OPENAI_API_KEY") w)).
Proof.
  intros Hkey. unfold validate_model, collected.
  destruct (validate_fields kwargs) as [values field_errors]. cbn [fst snd].
  rewrite (validate_environment_key _ _ _ Hkey).
  destruct (openai_installed w); reflexivity.
Qed.


End MissingCredential.


Section ExtraFields.
Context {V : Validators}.


End ExtraFields.



(** ** The constructed object *)

Section Constructed.
Context {V : Validators}.

(** A successful construction went through the root validator with no
    error collected: the key is set, the package installed, and the object
    holds the validated fields and [openai.Completion]. *)
Lemma init_ok_inv (kwargs : gmap string pyval) w self w' :
  OpenAI_init kwargs w = (Ok self, w') ->
  is_Some (environ w !! "OPENAI_API_KEY")
  /\ openai_installed w = true
  /\ collected kwargs = []
  /\ from_values (set_client (fst (validate_fields kwargs)) VCompletion) = Some self
  /\ w' = record (ImportModule "openai") (record (EnvironRead "OPENAI_API_KEY") w).
Proof.
  intros Hinit.
  destruct (environ w !! "OPENAI_API_KEY") as [key|] eqn:Hkey.
  - unfold OpenAI_init, bind in Hinit.
    rewrite (validate_model_key kwargs w key Hkey) in Hinit.
    destruct (openai_installed w); cbn [fst snd] in Hinit.
    + destruct (collected kwargs) as [|e errors]; [|discriminate].
      destruct (from_values _) as [self'|] eqn:Hfrom; [|discriminate].
      unfold ret in Hinit. inversion Hinit; subst. eauto 10.
    + destruct (collected kwargs ++ _)%list eqn:Happ; [|discriminate].
      by apply app_eq_nil in Happ as [_ ?].
  - rewrite (init_raises_on_errors kwargs w _ _ _ (validate_model_no_key kwargs w Hkey))
      in Hinit; [discriminate|].
    intros Hnil. by apply app_eq_nil in Hnil as [_ ?].
Qed.

Lemma validate_field_value {T} name type_name (validator : pyval -> option T) dflt
    (kwargs : gmap string pyval) (t : T) :
  fst (validate_field name type_name validator dflt kwargs) = Some t ->
  match kwargs !! name with
  | None => t = dflt
  | Some v => validator v = Some t
  end.
Proof.
  unfold validate_field. destruct (kwargs !! name) as [v|].
  - destruct (validator v); cbn; congruence.
  - cbn. congruence.
Qed.

(** C9, as amended. In a constructed object [n] and [best_of] are
    integers: the default 1 when the keyword is not supplied, and otherwise
    what the integer validator made of the supplied value.  No bound is
    checked. *)
Theorem n_best_of_integers (kwargs : gmap string pyval) (w w' : World) (self : OpenAI) :
  OpenAI_init kwargs w = (Ok self, w') ->
  match kwargs !! "n" with
  | None => n self = 1
  | Some v => int_validator v = Some (n self)
  end /\
  match kwargs !! "best_of" with
  | None => best_of self = 1
  | Some v => int_validator v = Some (best_of self)
  end.
Proof.
  intros Hinit. apply init_ok_inv in Hinit as (_ & _ & _ & Hfrom & _).
  unfold validate_fields in Hfrom.
  repeat match type of Hfrom with
  | context [validate_field ?a ?b ?c ?d ?e] =>
      let H := fresh "Hf" in
      pose proof (validate_field_value a b c d e) as H;
      destruct (validate_field a b c d e) as [[?|] ?]
  end; cbn in Hfrom; try discriminate.
  injection Hfrom as <-. cbn [n best_of].
  split.
  - match goal with
    | Hn : context [kwargs !! "n"] |- _ => apply Hn; reflexivity
    end.
  - match goal with
    | Hb : context [kwargs !! "best_of"] |- _ => apply Hb; reflexivity
    end.
Qed.

(** C10. With no keyword argument, the key set and the package installed,
    the construction returns the object of the defaults, and a call of it
    passes exactly these values to [create]. *)
Theorem defaults_forwarded (w : World) (prompt : string) (stop : option (list string)) :
  is_Some (environ w !! "OPENAI_API_KEY") ->
  openai_installed w = true ->
  exists w',
    OpenAI_init ∅ w
    = (Ok (mkOpenAI VCompletion "text-davinci-002" 0.7%float 256 1 0 0 1 1), w')
    /\ log (snd (OpenAI_call (mkOpenAI VCompletion "text-davinci-002" 0.7%float 256 1 0 0 1 1)
                              prompt stop w'))
       = (log w' ++ [Create {[ "model" := VStr "text-davinci-002";
                               "prompt" := VStr prompt;
                               "stop" := stop_value stop;
                               "temperature" := VFloat 0.7%float;
                               "max_tokens" := VInt 256;
                               "top_p" := VInt 1;
                               "frequency_penalty" := VInt 0;
                               "presence_penalty" := VInt 0;
                               "n" := VInt 1;
                               "best_of" := VInt 1 ]}])%list.
Proof.
  intros [key Hkey] Hinst.
  assert (Hinit : OpenAI_init ∅ w
    = (Ok (mkOpenAI VCompletion "text-davinci-002" 0.7%float 256 1 0 0 1 1),
       record (ImportModule "openai") (record (EnvironRead "OPENAI_API_KEY") w))).
  { unfold OpenAI_init, bind. rewrite (validate_model_key ∅ w key Hkey), Hinst.
    reflexivity. }
  eexists. split; [exact Hinit|].
  unfold OpenAI_call, bind, client_create, Completion_create. cbn [client].
  destruct (service _ _ _) as [response|e]; [|reflexivity].
  unfold lift.
  destruct (getitem response "choices") as [choices|e]; [|reflexivity].
  destruct (getitem0 choices) as [first|e]; [|reflexivity].
  reflexivity.
Qed.

End Constructed.

Lemma n_best_of_integers_witness :
  @OpenAI_init exact_validators {[ "n" := VInt 3; "best_of" := VInt 5 ]} world_ok
  = (Ok (mkOpenAI VCompletion "text-davinci-002" 0.7%float 256 1 0 0 3 5),
     record (ImportModule "openai") (record (EnvironRead "OPENAI_API_KEY") world_ok))
  /\ (@int_validator exact_validators (VInt 3) = Some 3
      /\ @int_validator exact_validators (VInt 5) = Some 5).
Proof.
  assert (Hinit :
    @OpenAI_init exact_validators {[ "n" := VInt 3; "best_of" := VInt 5 ]} world_ok
    = (Ok (mkOpenAI VCompletion "text-davinci-002" 0.7%float 256 1 0 0 3 5),
       record (ImportModule "openai") (record (EnvironRead "OPENAI_API_KEY") world_ok))).
  { vm_compute. reflexivity. }
  split; [exact Hinit|].
  exact (@n_best_of_integers exact_validators _ _ _ _ Hinit).
Defined.

(** C9, as stated, fails: [n=0] and [best_of=-2] are accepted. *)
Lemma n_lower_bound_counterexample :
  exists self w',
    @OpenAI_init exact_validators {[ "n" := VInt 0; "best_of" := VInt (-2) ]} world_ok
    = (Ok self, w')
    /\ n self = 0 /\ best_of self = -2
    /\ ~ (1 <= n self) /\ ~ (1 <= best_of self).
Proof.
  eexists _, _. split; [vm_compute; reflexivity|].
  cbn. repeat split; lia.
Qed.

Lemma defaults_forwarded_witness :
  is_Some (environ world_ok !! "OPENAI_API_KEY") /\
  openai_installed world_ok = true /\
  exists w',
    @OpenAI_init exact_validators ∅ world_ok
    = (Ok (mkOpenAI VCompletion "text-davinci-002" 0.7%float 256 1 0 0 1 1), w')
    /\ log (snd (OpenAI_call (mkOpenAI VCompletion "text-davinci-002" 0.7%float 256 1 0 0 1 1)
                              "Tell me a joke." None w'))
       = (log w' ++ [Create {[ "model" := VStr "text-davinci-002";
                               "prompt" := VStr "Tell me a joke.";
                               "stop" := stop_value None;
                               "temperature" := VFloat 0.7%float;
                               "max_tokens" := VInt 256;
                               "top_p" := VInt 1;
                               "frequency_penalty" := VInt 0;
                               "presence_penalty" := VInt 0;
                               "n" := VInt 1;
                               "best_of" := VInt 1 ]}])%list.
Proof.
  assert (H1 : is_Some (environ world_ok !! "OPENAI_API_KEY")).
  { exists "sk-test". reflexivity. }
  split; [exact H1|]. split; [reflexivity|].
  exact (@defaults_forwarded exact_validators world_ok "Tell me a joke." None H1 eq_refl).
Defined.

(** ** Calls *)

(** A call issues one request to [create], whatever comes back. *)
Lemma call_world (self : OpenAI) prompt stop w :
  client self = VCompletion ->
  snd (OpenAI_call self prompt stop w)
  = record (Create (create_kwargs self prompt stop)) w.
Proof.
  intros Hc. unfold OpenAI_call, bind, client_create, Completion_create.
  rewrite Hc.
  destruct (service _ _ _) as [response|e]; [|reflexivity].
  unfold lift.
  destruct (getitem response "choices") as [choices|e]; [|reflexivity].
  destruct (getitem0 choices) as [first|e]; [|reflexivity].
  reflexivity.
Qed.

Lemma call_result (self : OpenAI) prompt stop w :
  client self = VCompletion ->
  fst (OpenAI_call self prompt stop w)
  = match service w (log w) (create_kwargs self prompt stop) with
    | Ok response =>
        match getitem response "choices" with
        | Ok choices =>
            match getitem0 choices with
            | Ok first => getitem first "text"
            | Raise e => Raise e
            end
        | Raise e => Raise e
        end
    | Raise e => Raise e
    end.
Proof.
  intros Hc. unfold OpenAI_call, bind, client_create, Completion_create.
  rewrite Hc.
  destruct (service _ _ _) as [response|e]; [|reflexivity].
  unfold lift.
  destruct (getitem response "choices") as [choices|e]; [|reflexivity].
  destruct (getitem0 choices) as [first|e]; [|reflexivity].
  reflexivity.
Qed.

(** C3. A call sends one request to [create] and, when the response holds
    a list [choices] whose first element has a field [text], returns that
    field; an exception of [create] is passed on after the one request.
    Nothing is sent again and nothing is remembered. *)
Theorem call_returns_first_choice_text (self : OpenAI) (prompt : string)
    (stop : option (list string)) (w : World) :
  client self = VCompletion ->
  snd (OpenAI_call self prompt stop w) = record (Create (create_kwargs self prompt stop)) w
  /\ (forall d c rest text,
        service w (log w) (create_kwargs self prompt stop) = Ok (VDict d) ->
        d !! "choices" = Some (VList (VDict c :: rest)) ->
        c !! "text" = Some text ->
        fst (OpenAI_call self prompt stop w) = Ok text)
  /\ (forall e,
        service w (log w) (create_kwargs self prompt stop) = Raise e ->
        fst (OpenAI_call self prompt stop w) = Raise e).
Proof.
  intros Hc. split; [|split].
  - by apply call_world.
  - intros d c rest text Hresp Hchoices Htext.
    rewrite call_result by done. rewrite Hresp. cbn.
    rewrite Hchoices. cbn. rewrite Htext. reflexivity.
  - intros e Hresp. rewrite call_result by done. rewrite Hresp. reflexivity.
Qed.

Lemma call_many_log (self : OpenAI) requests w :
  client self = VCompletion ->
  log (call_many self requests w)
  = (log w ++ map (fun r => Create (create_kwargs self (fst r) (snd r))) requests)%list.
Proof.
  intros Hc. revert w. induction requests as [|[prompt stop] rest IH]; intros w; cbn.
  - by rewrite app_nil_r.
  - rewrite IH, call_world by done. rewrite record_log, <- app_assoc. reflexivity.
Qed.

Lemma create_kwargs_literal (self : OpenAI) prompt stop :
  create_kwargs self prompt stop
  = {[ "model" := VStr (model_name self);
       "prompt" := VStr prompt;
       "stop" := stop_value stop;
       "temperature" := VFloat (temperature self);
       "max_tokens" := VInt (max_tokens self);
       "top_p" := VInt (top_p self);
       "frequency_penalty" := VInt (frequency_penalty self);
       "presence_penalty" := VInt (presence_penalty self);
       "n" := VInt (n self);
       "best_of" := VInt (best_of self) ]}.
Proof. reflexivity. Qed.

Lemma create_kwargs_dom (self : OpenAI) prompt stop :
  dom (create_kwargs self prompt stop) = forwarded_names.
Proof. reflexivity. Qed.

(** The object built after the root validator holds the client the root
    validator stored. *)
Lemma from_values_client (values : Values) (c : pyval) (self : OpenAI) :
  from_values (set_client values c) = Some self -> client self = c.
Proof.
  destruct values as [vc vm vt vmt vtp vfp vpp vn vbo].
  unfold from_values, set_client. cbn.
  destruct vm, vt, vmt, vtp, vfp, vpp, vn, vbo; cbn; try discriminate.
  intros Hself. inversion Hself. reflexivity.
Qed.

(** C4. For an object returned by the constructor, every call in any
    sequence of calls passes to [create] exactly the ten names [model],
    [prompt], [stop] and the seven generation parameters, with the values
    the object was constructed with: the log grows by one request per call,
    each built from the same object and the arguments of that call. *)
Theorem calls_forward_configuration {V : Validators} (kwargs : gmap string pyval)
    (w0 w : World) (self : OpenAI) (requests : list (string * option (list string))) :
  OpenAI_init kwargs w0 = (Ok self, w) ->
  log (call_many self requests w)
  = (log w ++ map (fun r => Create (create_kwargs self (fst r) (snd r))) requests)%list
  /\ forall prompt stop,
       dom (create_kwargs self prompt stop) = forwarded_names
       /\ create_kwargs self prompt stop
          = {[ "model" := VStr (model_name self);
               "prompt" := VStr prompt;
               "stop" := stop_value stop;
               "temperature" := VFloat (temperature self);
               "max_tokens" := VInt (max_tokens self);
               "top_p" := VInt (top_p self);
               "frequency_penalty" := VInt (frequency_penalty self);
               "presence_penalty" := VInt (presence_penalty self);
               "n" := VInt (n self);
               "best_of" := VInt (best_of self) ]}.
Proof.
  intros Hinit.
  assert (Hc : client self = VCompletion).
  { apply init_ok_inv in Hinit as (_ & _ & _ & Hfrom & _).
    by apply from_values_client in Hfrom. }
  split.
  - by apply call_many_log.
  - intros prompt stop. split.
    + apply create_kwargs_dom.
    + apply create_kwargs_literal.
Qed.

Lemma call_returns_first_choice_text_witness :
  let self := mkOpenAI VCompletion "text-davinci-002" 0.7%float 256 1 0 0 1 1 in
  client self = VCompletion /\
  (snd (OpenAI_call self "Tell me a joke." None world_ok)
   = record (Create (create_kwargs self "Tell me a joke." None)) world_ok
   /\ (forall d c rest text,
        service world_ok (log world_ok) (create_kwargs self "Tell me a joke." None)
        = Ok (VDict d) ->
        d !! "choices" = Some (VList (VDict c :: rest)) ->
        c !! "text" = Some text ->
        fst (OpenAI_call self "Tell me a joke." None world_ok) = Ok text)
   /\ (forall e,
        service world_ok (log world_ok) (create_kwargs self "Tell me a joke." None)
        = Raise e ->
        fst (OpenAI_call self "Tell me a joke." None world_ok) = Raise e)).
Proof.
  intros self. split; [reflexivity|].
  apply (call_returns_first_choice_text self "Tell me a joke." None world_ok).
  reflexivity.
Defined.

Lemma calls_forward_configuration_witness :
  let self := mkOpenAI VCompletion "text-davinci-002" 0.7%float 10 1 0 0 2 4 in
  let w := record (ImportModule "openai") (record (EnvironRead "OPENAI_API_KEY") world_ok) in
  let requests := [("a", None); ("b", Some ["."]); ("a", None)] in
  @OpenAI_init exact_validators
     {[ "max_tokens" := VInt 10; "n" := VInt 2; "best_of" := VInt 4 ]} world_ok
  = (Ok self, w)
  /\ log (call_many self requests w)
     = (log w ++ map (fun r => Create (create_kwargs self (fst r) (snd r))) requests)%list.
Proof.
  intros self w requests.
  assert (Hinit : @OpenAI_init exact_validators
     {[ "max_tokens" := VInt 10; "n" := VInt 2; "best_of" := VInt 4 ]} world_ok
     = (Ok self, w)).
  { vm_compute. reflexivity. }
  split; [exact Hinit|].
  exact (proj1 (@calls_forward_configuration exact_validators _ _ _ _ requests Hinit)).
Defined.

(** The response of the example service: the first choice is returned. *)
Example call_echo :
  fst (OpenAI_call (mkOpenAI VCompletion "text-davinci-002" 0.7%float 256 1 0 0 1 1)
         "Tell me a joke." None world_ok)
  = Ok (VStr "Tell me a joke.").
Proof. vm_compute. reflexivity. Qed.

(** ** Strings *)

Lemma append_cons (c : ascii) (s1 s2 : string) :
  (String c s1 ++ s2)%string = String c (s1 ++ s2).
Proof. reflexivity. Qed.

Lemma length_append (s1 s2 : string) :
  String.length (s1 ++ s2) = (String.length s1 + String.length s2)%nat.
Proof.
  induction s1 as [|c s1 IH]; [reflexivity|].
  rewrite append_cons. simpl. f_equal. exact IH.
Qed.

Lemma len_append (s1 s2 : string) : len (s1 ++ s2) = len s1 + len s2.
Proof. unfold len. rewrite length_append. lia. Qed.

Lemma len_nonneg (s : string) : 0 <= len s.
Proof. unfold len. lia. Qed.

Lemma append_assoc (s1 s2 s3 : string) : ((s1 ++ s2) ++ s3 = s1 ++ (s2 ++ s3))%string.
Proof.
  induction s1 as [|c s1 IH]; [reflexivity|].
  rewrite !append_cons. f_equal. exact IH.
Qed.

Lemma append_empty_r (s : string) : (s ++ "")%string = s.
Proof.
  induction s as [|c s IH]; [reflexivity|].
  rewrite append_cons. f_equal. exact IH.
Qed.

Lemma len_iter_append (s : string) (k : nat) :
  len (Nat.iter k (String.append s) "") = Z.of_nat k * len s.
Proof.
  induction k as [|k IH].
  - reflexivity.
  - rewrite Nat.iter_succ, len_append, IH, Nat2Z.inj_succ. ring.
Qed.

(** [len(s * k) = k * len(s)] *)
Lemma len_str_mul (s : string) (k : Z) : 0 <= k -> len (str_mul s k) = k * len s.
Proof. intros Hk. unfold str_mul. rewrite len_iter_append, Z2Nat.id by lia. reflexivity. Qed.

Lemma substring_split (k : nat) (s : string) :
  exists rest, s = (substring 0 k s ++ rest)%string.
Proof.
  revert s. induction k as [|k IH]; intros s.
  - exists s. destruct s; reflexivity.
  - destruct s as [|c s].
    + exists ""%string. reflexivity.
    + destruct (IH s) as [rest Hrest]. exists rest.
      change (substring 0 (S k) (String c s)) with (String c (substring 0 k s)).
      rewrite append_cons. f_equal. exact Hrest.
Qed.

Lemma substring_length (k : nat) (s : string) :
  String.length (substring 0 k s) = Nat.min k (String.length s).
Proof.
  revert s. induction k as [|k IH]; intros s.
  - destruct s; reflexivity.
  - destruct s as [|c s]; [reflexivity|].
    change (substring 0 (S k) (String c s)) with (String c (substring 0 k s)).
    simpl. f_equal. apply IH.
Qed.

(** [s[:k]] is the leading part of [s], of [min(k, len(s))] characters. *)
Lemma str_prefix_spec (k : Z) (s : string) :
  0 <= k ->
  (exists rest, s = (str_prefix k s ++ rest)%string)
  /\ len (str_prefix k s) = Z.min k (len s).
Proof.
  intros Hk. unfold str_prefix, len. split.
  - apply substring_split.
  - rewrite substring_length. lia.
Qed.

(** ** [FakeLLM] *)

Lemma FakeLLM_call_eq (self : FakeLLM) prompt stop w :
  FakeLLM_call self prompt stop w
  = (Ok (VStr (if (10000 <? len prompt)%Z then "foo" else "bar")), w).
Proof. unfold FakeLLM_call. destruct (10000 <? len prompt)%Z; reflexivity. Qed.

(** * Further properties of [OpenAI] and [FakeLLM] *)

Section ConstructionOutcome.
Context {V : Validators}.

(** The constructor in one equation: the errors of the fields, of the extra
    names and of the root validator are raised together; without any, the
    object is built from the validated fields and [openai.Completion]. *)
Lemma init_outcome (kwargs : gmap string pyval) (w : World) :
  OpenAI_init kwargs w
  = (match (collected kwargs ++ root_errors w)%list,
           from_values (set_client (fst (validate_fields kwargs)) VCompletion) with
     | [], Some self => Ok self
     | errors, _ => Raise (ValidationError errors)
     end,
     after_construction w).
Proof.
  unfold OpenAI_init, bind, root_errors, after_construction.
  destruct (environ w !! "OPENAI_API_KEY") as [key|] eqn:Hkey.
  - rewrite (validate_model_key kwargs w key Hkey).
    destruct (openai_installed w); cbn [fst snd].
    + rewrite app_nil_r. destruct (collected kwargs); [|reflexivity].
      destruct (from_values _); reflexivity.
    + destruct (collected kwargs ++ _)%list eqn:Happ; [|reflexivity].
      by apply app_eq_nil in Happ as [_ ?].
  - rewrite (validate_model_no_key kwargs w Hkey). cbn [fst snd].
    destruct (collected kwargs ++ _)%list eqn:Happ; [|reflexivity].
    by apply app_eq_nil in Happ as [_ ?].
Qed.

Lemma after_construction_log (w : World) :
  log (after_construction w) = (log w ++ construction_events w)%list.
Proof.
  unfold after_construction, construction_events.
  destruct (environ w !! "OPENAI_API_KEY") as [key|].
  - rewrite bool_decide_eq_true_2 by eauto. rewrite !record_log, <- app_assoc. reflexivity.
  - rewrite bool_decide_eq_false_2 by (intros [x Hx]; discriminate). apply record_log.
Qed.

Lemma validate_field_errors {T} name type_name (validator : pyval -> option T) dflt
    (kwargs : gmap string pyval) (e : ErrorWrapper) :
  e ∈ snd (validate_field name type_name validator dflt kwargs) ->
  e = FieldError name type_name.
Proof.
  unfold validate_field. destruct (kwargs !! name) as [v|]; [destruct (validator v)|];
    cbn; intros He.
  - by apply elem_of_nil in He.
  - by apply list_elem_of_singleton in He.
  - by apply elem_of_nil in He.
Qed.

(** The field loop reports field errors only. *)
Lemma validate_fields_errors (kwargs : gmap string pyval) (e : ErrorWrapper) :
  e ∈ snd (validate_fields kwargs) -> exists name type_name, e = FieldError name type_name.
Proof.
  unfold validate_fields.
  repeat match goal with
  | |- context [validate_field ?a ?b ?c ?d ?e] =>
      let H := fresh "Hf" in
      pose proof (validate_field_errors a b c d e) as H;
      destruct (validate_field a b c d e) as [? ?]
  end.
  cbn [snd] in *. rewrite !elem_of_app.
  intros [He|[He|[He|[He|[He|[He|[He|He]]]]]]]; eauto.
Qed.

Lemma collected_extra (kwargs : gmap string pyval) (k : string) :
  ExtraError k ∈ collected kwargs <-> is_Some (kwargs !! k) /\ k ∉ fields.
Proof.
  unfold collected. rewrite elem_of_app, list_elem_of_fmap. split.
  - intros [Hin | (k' & Heq & Hin)].
    + apply validate_fields_errors in Hin as (name & type_name & Heq). discriminate.
    + injection Heq as ->. by apply extra_fields_spec.
  - intros Hk. right. exists k. split; [reflexivity|]. by apply extra_fields_spec.
Qed.

Lemma collected_no_root (kwargs : gmap string pyval) (msg : string) :
  RootError msg ∉ collected kwargs.
Proof.
  unfold collected. rewrite elem_of_app, list_elem_of_fmap.
  intros [Hin | (k' & Heq & Hin)].
  - apply validate_fields_errors in Hin as (name & type_name & Heq). discriminate.
  - discriminate.
Qed.

End ConstructionOutcome.

Section FieldAcceptance.
Context {V : Validators}.

Lemma validate_field_accepts {T} name type_name (validator : pyval -> option T) dflt
    (kwargs : gmap string pyval) :
  (snd (validate_field name type_name validator dflt kwargs) = []
   <-> accepts validator name kwargs = true)
  /\ (is_Some (fst (validate_field name type_name validator dflt kwargs))
      <-> accepts validator name kwargs = true).
Proof.
  unfold validate_field, accepts.
  destruct (kwargs !! name) as [v|]; [destruct (validator v)|]; cbn.
  - split; split; eauto.
  - split; split; try discriminate. intros [x Hx]. discriminate.
  - split; split; eauto.
Qed.

Ltac split_fields :=
  unfold validate_fields, fields_accepted;
  repeat match goal with
  | |- context [validate_field ?a ?b ?c ?d ?e] =>
      let H1 := fresh "Herr" in
      let H2 := fresh "Hval" in
      destruct (validate_field_accepts a b c d e) as [H1 H2];
      destruct (validate_field a b c d e) as [? ?]
  end;
  cbn [fst snd] in *.

(** The field loop finds no error exactly when every supplied value is
    accepted. *)
Lemma validate_fields_accepted (kwargs : gmap string pyval) :
  snd (validate_fields kwargs) = [] <-> fields_accepted kwargs = true.
Proof.
  split_fields. rewrite !app_nil, !andb_true_iff. tauto.
Qed.

(** When every supplied value is accepted, the object can be built. *)
Lemma from_values_accepted (kwargs : gmap string pyval) (c : pyval) :
  fields_accepted kwargs = true ->
  is_Some (from_values (set_client (fst (validate_fields kwargs)) c)).
Proof.
  split_fields. rewrite !andb_true_iff.
  intros (((((((A1 & A2) & A3) & A4) & A5) & A6) & A7) & A8).
  apply Hval in A1 as [? ->]. apply Hval0 in A2 as [? ->].
  apply Hval1 in A3 as [? ->]. apply Hval2 in A4 as [? ->].
  apply Hval3 in A5 as [? ->]. apply Hval4 in A6 as [? ->].
  apply Hval5 in A7 as [? ->]. apply Hval6 in A8 as [? ->].
  cbn. eauto.
Qed.

Lemma extra_fields_nil (kwargs : gmap string pyval) :
  extra_fields kwargs = [] <-> no_extra kwargs.
Proof.
  unfold no_extra. split.
  - intros Hnil k Hk. apply elem_of_dom in Hk.
    destruct (decide (k ∈ fields)) as [Hin | Hnot].
    + by apply elem_of_list_to_set.
    + assert (Hex : k ∈ extra_fields kwargs) by by apply extra_fields_spec.
      rewrite Hnil in Hex. by apply elem_of_nil in Hex.
  - intros Hsub. destruct (extra_fields kwargs) as [|k rest] eqn:Hex; [reflexivity|].
    assert (Hk : k ∈ extra_fields kwargs) by (rewrite Hex; left).
    apply extra_fields_spec in Hk as [Hsome Hnot].
    apply elem_of_dom in Hsome. apply Hsub in Hsome.
    by apply elem_of_list_to_set in Hsome.
Qed.

Lemma collected_nil (kwargs : gmap string pyval) :
  collected kwargs = [] <-> fields_accepted kwargs = true /\ no_extra kwargs.
Proof.
  unfold collected. rewrite app_nil, validate_fields_accepted, <- extra_fields_nil.
  destruct (extra_fields kwargs); cbn; intuition discriminate.
Qed.

End FieldAcceptance.

Section ConstructionExtras.
Context {V : Validators}.


(** X2. The construction returns an object exactly when the key is set, the
    package is installed, only declared fields are supplied and every
    supplied value is accepted by the validator of its field. *)
Theorem construction_succeeds_iff (kwargs : gmap string pyval) (w : World) :
  (exists self w', OpenAI_init kwargs w = (Ok self, w'))
  <-> is_Some (environ w !! "OPENAI_API_KEY")
      /\ openai_installed w = true
      /\ no_extra kwargs
      /\ fields_accepted kwargs = true.
Proof.
  split.
  - intros (self & w' & Hinit).
    apply init_ok_inv in Hinit as (Hkey & Hinst & Hcoll & _ & _).
    apply collected_nil in Hcoll as [Hacc Hextra]. eauto.
  - intros ([key Hkey] & Hinst & Hextra & Hacc).
    destruct (from_values_accepted kwargs VCompletion Hacc) as [self Hself].
    exists self, (after_construction w).
    rewrite init_outcome. unfold root_errors. rewrite Hkey, Hinst, app_nil_r.
    rewrite (proj2 (collected_nil kwargs) (conj Hacc Hextra)), Hself. reflexivity.
Qed.



End ConstructionExtras.



Section FieldValues.
Context {V : Validators}.

Lemma validate_field_insert_other {T} (k name type_name : string)
    (validator : pyval -> option T) dflt (v : pyval) (kwargs : gmap string pyval) :
  k <> name ->
  validate_field name type_name validator dflt (<[k := v]> kwargs)
  = validate_field name type_name validator dflt kwargs.
Proof. intros Hne. unfold validate_field. by rewrite lookup_insert_ne. Qed.

(** X5. The keyword [client] has no influence: whatever is supplied for it,
    the construction has the same outcome, and a constructed object holds
    [openai.Completion]. *)
Theorem client_keyword_ignored (kwargs : gmap string pyval) (v : pyval) (w : World) :
  OpenAI_init (<["client" := v]> kwargs) w = OpenAI_init kwargs w
  /\ forall self w', OpenAI_init kwargs w = (Ok self, w') -> client self = VCompletion.
Proof.
  split.
  - rewrite !init_outcome.
    assert (Hfields : forall c,
      set_client (fst (validate_fields (<["client" := v]> kwargs))) c
      = set_client (fst (validate_fields kwargs)) c
      /\ snd (validate_fields (<["client" := v]> kwargs)) = snd (validate_fields kwargs)).
    { intros c. unfold validate_fields.
      rewrite !(validate_field_insert_other "client") by discriminate.
      repeat match goal with
      | |- context [validate_field ?a ?b ?c ?d ?e] =>
          destruct (validate_field a b c d e) as [? ?]
      end.
      split; reflexivity. }
    assert (Hextra : extra_fields (<["client" := v]> kwargs) = extra_fields kwargs).
    { unfold extra_fields. f_equal. f_equal. rewrite dom_insert_L.
      apply set_eq. intros k. rewrite !elem_of_difference, elem_of_union.
      rewrite elem_of_singleton, elem_of_list_to_set. split.
      - intros [[-> | Hk] Hnot]; [|done]. exfalso. apply Hnot. unfold fields. left.
      - intros [Hk Hnot]. split; [by right | done]. }
    unfold collected. destruct (Hfields VCompletion) as [-> ->]. by rewrite Hextra.
  - intros self w' Hinit. apply init_ok_inv in Hinit as (_ & _ & _ & Hfrom & _).
    by apply from_values_client in Hfrom.
Qed.

End FieldValues.

Section Forwarding.
Context {V : Validators}.

Lemma validate_field_sent {T} name type_name (validator : pyval -> option T) dflt
    (to_value : T -> pyval) (kwargs : gmap string pyval) (t : T) :
  fst (validate_field name type_name validator dflt kwargs) = Some t ->
  sent validator to_value dflt name kwargs (Some (to_value t)).
Proof.
  intros Hfst. apply validate_field_value in Hfst. unfold sent.
  destruct (kwargs !! name) as [v|]; [eauto | by subst].
Qed.

(** The typed fields of a built object are the validated values. *)
Lemma from_values_inv (values : Values) (self : OpenAI) :
  from_values values = Some self ->
  v_model_name values = Some (model_name self)
  /\ v_temperature values = Some (temperature self)
  /\ v_max_tokens values = Some (max_tokens self)
  /\ v_top_p values = Some (top_p self)
  /\ v_frequency_penalty values = Some (frequency_penalty self)
  /\ v_presence_penalty values = Some (presence_penalty self)
  /\ v_n values = Some (n self)
  /\ v_best_of values = Some (best_of self).
Proof.
  destruct values as [vc vm vt vmt vtp vfp vpp vn vbo]. unfold from_values. cbn.
  destruct vc; [|discriminate]. destruct vm; [|discriminate].
  destruct vt; [|discriminate]. destruct vmt; [|discriminate].
  destruct vtp; [|discriminate]. destruct vfp; [|discriminate].
  destruct vpp; [|discriminate]. destruct vn; [|discriminate].
  destruct vbo; [|discriminate]. cbn.
  intros Hself. inversion Hself. cbn. repeat split.
Qed.

(** The values of the field loop, field by field. *)
Lemma validate_fields_proj (kwargs : gmap string pyval) :
  let values := fst (validate_fields kwargs) in
  v_model_name values
  = fst (validate_field "model_name" "str" str_validator "text-davinci-002" kwargs)
  /\ v_temperature values
     = fst (validate_field "temperature" "float" float_validator 0.7%float kwargs)
  /\ v_max_tokens values = fst (validate_field "max_tokens" "integer" int_validator 256 kwargs)
  /\ v_top_p values = fst (validate_field "top_p" "integer" int_validator 1 kwargs)
  /\ v_frequency_penalty values
     = fst (validate_field "frequency_penalty" "integer" int_validator 0 kwargs)
  /\ v_presence_penalty values
     = fst (validate_field "presence_penalty" "integer" int_validator 0 kwargs)
  /\ v_n values = fst (validate_field "n" "integer" int_validator 1 kwargs)
  /\ v_best_of values = fst (validate_field "best_of" "integer" int_validator 1 kwargs).
Proof.
  unfold validate_fields.
  repeat match goal with
  | |- context [validate_field ?a ?b ?c ?d ?e] =>
      destruct (validate_field a b c d e) as [? ?]
  end.
  cbn. repeat split.
Qed.

(** X6. From the keyword arguments of the constructor to the request of a
    call: under [model] the request holds the value of the field
    [model_name], and under each of the seven parameter names the value of
    the field of that name, which is the declared default when the field
    was not supplied and the validated supplied value otherwise. *)
Theorem supplied_values_forwarded (kwargs : gmap string pyval) (w w' : World)
    (self : OpenAI) (prompt : string) (stop : option (list string)) :
  OpenAI_init kwargs w = (Ok self, w') ->
  let request := create_kwargs self prompt stop in
  sent str_validator VStr "text-davinci-002" "model_name" kwargs (request !! "model")
  /\ sent float_validator VFloat 0.7%float "temperature" kwargs (request !! "temperature")
  /\ sent int_validator VInt 256 "max_tokens" kwargs (request !! "max_tokens")
  /\ sent int_validator VInt 1 "top_p" kwargs (request !! "top_p")
  /\ sent int_validator VInt 0 "frequency_penalty" kwargs (request !! "frequency_penalty")
  /\ sent int_validator VInt 0 "presence_penalty" kwargs (request !! "presence_penalty")
  /\ sent int_validator VInt 1 "n" kwargs (request !! "n")
  /\ sent int_validator VInt 1 "best_of" kwargs (request !! "best_of").
Proof.
  intros Hinit request. apply init_ok_inv in Hinit as (_ & _ & _ & Hfrom & _).
  apply from_values_inv in Hfrom as (Hm & Ht & Hmt & Htp & Hfp & Hpp & Hn & Hbo).
  destruct (validate_fields_proj kwargs) as (Pm & Pt & Pmt & Ptp & Pfp & Ppp & Pn & Pbo).
  cbn [set_client v_model_name v_temperature v_max_tokens v_top_p v_frequency_penalty
       v_presence_penalty v_n v_best_of] in *.
  rewrite Pm in Hm. rewrite Pt in Ht. rewrite Pmt in Hmt. rewrite Ptp in Htp.
  rewrite Pfp in Hfp. rewrite Ppp in Hpp. rewrite Pn in Hn. rewrite Pbo in Hbo.
  subst request. repeat split.
  - exact (validate_field_sent _ _ _ _ VStr _ _ Hm).
  - exact (validate_field_sent _ _ _ _ VFloat _ _ Ht).
  - exact (validate_field_sent _ _ _ _ VInt _ _ Hmt).
  - exact (validate_field_sent _ _ _ _ VInt _ _ Htp).
  - exact (validate_field_sent _ _ _ _ VInt _ _ Hfp).
  - exact (validate_field_sent _ _ _ _ VInt _ _ Hpp).
  - exact (validate_field_sent _ _ _ _ VInt _ _ Hn).
  - exact (validate_field_sent _ _ _ _ VInt _ _ Hbo).
Qed.

End Forwarding.

Lemma supplied_values_forwarded_witness :
  let kwargs : gmap string pyval :=
    {[ "model_name" := VStr "text-ada-001"; "temperature" := VFloat 0%float;
       "max_tokens" := VInt 16 ]} in
  let self := mkOpenAI VCompletion "text-ada-001" 0%float 16 1 0 0 1 1 in
  @OpenAI_init exact_validators kwargs world_ok
  = (Ok self, record (ImportModule "openai") (record (EnvironRead "OPENAI_API_KEY") world_ok))
  /\ @sent _ (@str_validator exact_validators) VStr "text-davinci-002" "model_name" kwargs
       (create_kwargs self "hi" None !! "model")
  /\ @sent _ (@int_validator exact_validators) VInt 1 "n" kwargs
       (create_kwargs self "hi" None !! "n").
Proof.
  intros kwargs self.
  assert (Hinit : @OpenAI_init exact_validators kwargs world_ok
    = (Ok self, record (ImportModule "openai")
                  (record (EnvironRead "OPENAI_API_KEY") world_ok))).
  { vm_compute. reflexivity. }
  split; [exact Hinit|].
  destruct (@supplied_values_forwarded exact_validators kwargs _ _ self "hi" None Hinit)
    as (Hmodel & _ & _ & _ & _ & _ & Hn & _).
  split; [exact Hmodel | exact Hn].
Defined.

(** ** Responses that do not have the expected shape *)

(** X7. A response without [choices] makes the call raise [KeyError] for
    [choices], an empty list of choices [IndexError], a first choice
    without [text] [KeyError] for [text]; in each case the one request was
    sent. *)
Theorem malformed_response_raises (self : OpenAI) (prompt : string)
    (stop : option (list string)) (w : World) (d : gmap string pyval) :
  client self = VCompletion ->
  service w (log w) (create_kwargs self prompt stop) = Ok (VDict d) ->
  snd (OpenAI_call self prompt stop w) = record (Create (create_kwargs self prompt stop)) w
  /\ (d !! "choices" = None ->
      fst (OpenAI_call self prompt stop w) = Raise (KeyError "choices"))
  /\ (d !! "choices" = Some (VList []) ->
      fst (OpenAI_call self prompt stop w) = Raise IndexError)
  /\ (forall c rest,
        d !! "choices" = Some (VList (VDict c :: rest)) ->
        c !! "text" = None ->
        fst (OpenAI_call self prompt stop w) = Raise (KeyError "text")).
Proof.
  intros Hc Hresp. split; [by apply call_world|].
  rewrite call_result by done. rewrite Hresp. cbn [getitem].
  split; [|split].
  - intros ->. reflexivity.
  - intros ->. reflexivity.
  - intros c rest -> Htext. cbn. rewrite Htext. reflexivity.
Qed.

Lemma malformed_response_raises_witness :
  let self := mkOpenAI VCompletion "text-davinci-002" 0.7%float 256 1 0 0 1 1 in
  client self = VCompletion /\
  service world_no_choice (log world_no_choice) (create_kwargs self "hi" None)
  = Ok (VDict {[ "choices" := VList [] ]}) /\
  fst (OpenAI_call self "hi" None world_no_choice) = Raise IndexError.
Proof.
  intros self. split; [reflexivity|]. split; [reflexivity|].
  destruct (malformed_response_raises self "hi" None world_no_choice
              {[ "choices" := VList [] ]} eq_refl eq_refl) as (_ & _ & Hempty & _).
  apply Hempty. reflexivity.
Defined.

(** X8. A call does not look at the environment or at the installed
    packages and leaves them as they are: in two worlds with the same
    service and the same log it has the same outcome. *)
Theorem call_ignores_environment (self : OpenAI) (prompt : string)
    (stop : option (list string)) (w1 w2 : World) :
  client self = VCompletion ->
  service w1 = service w2 ->
  log w1 = log w2 ->
  fst (OpenAI_call self prompt stop w1) = fst (OpenAI_call self prompt stop w2)
  /\ environ (snd (OpenAI_call self prompt stop w1)) = environ w1
  /\ openai_installed (snd (OpenAI_call self prompt stop w1)) = openai_installed w1.
Proof.
  intros Hc Hservice Hlog. split; [|split].
  - rewrite !call_result by done. by rewrite Hservice, Hlog.
  - by rewrite call_world.
  - by rewrite call_world.
Qed.

Lemma call_ignores_environment_witness :
  let self := mkOpenAI VCompletion "text-davinci-002" 0.7%float 256 1 0 0 1 1 in
  client self = VCompletion /\
  service world_ok = service world_no_key /\
  log world_ok = log world_no_key /\
  fst (OpenAI_call self "hi" None world_ok) = fst (OpenAI_call self "hi" None world_no_key).
Proof.
  intros self. split; [reflexivity|]. split; [reflexivity|]. split; [reflexivity|].
  exact (proj1 (call_ignores_environment self "hi" None world_ok world_no_key
                  eq_refl eq_refl eq_refl)).
Defined.

(** ** The keyword [model] *)



(** ** Requests *)

Lemma stop_value_inj (s s' : option (list string)) :
  stop_value s = stop_value s' -> s = s'.
Proof.
  destruct s as [l|], s' as [l'|]; cbn; try discriminate; [|reflexivity].
  intros Heq. injection Heq as Heq. f_equal.
  revert l' Heq. induction l as [|x l IH]; intros [|x' l']; cbn; try discriminate.
  - reflexivity.
  - intros Heq. injection Heq as -> Heq. f_equal. by apply IH.
Qed.

(** X10. The request of a call holds all that went into it: two requests
    are the same only for the same prompt, the same stop sequences (no stop
    list and the empty stop list are told apart), the same model name and
    the same seven parameters. *)
Theorem request_identifies_call (self self' : OpenAI) (prompt prompt' : string)
    (stop stop' : option (list string)) :
  create_kwargs self prompt stop = create_kwargs self' prompt' stop' ->
  prompt = prompt' /\ stop = stop'
  /\ model_name self = model_name self'
  /\ _default_params self = _default_params self'.
Proof.
  intros Heq.
  pose proof (f_equal (fun m : gmap string pyval => m !! "prompt") Heq) as Hp.
  pose proof (f_equal (fun m : gmap string pyval => m !! "stop") Heq) as Hs.
  pose proof (f_equal (fun m : gmap string pyval => m !! "model") Heq) as Hm.
  pose proof (f_equal (fun m : gmap string pyval => m !! "temperature") Heq) as H1.
  pose proof (f_equal (fun m : gmap string pyval => m !! "max_tokens") Heq) as H2.
  pose proof (f_equal (fun m : gmap string pyval => m !! "top_p") Heq) as H3.
  pose proof (f_equal (fun m : gmap string pyval => m !! "frequency_penalty") Heq) as H4.
  pose proof (f_equal (fun m : gmap string pyval => m !! "presence_penalty") Heq) as H5.
  pose proof (f_equal (fun m : gmap string pyval => m !! "n") Heq) as H6.
  pose proof (f_equal (fun m : gmap string pyval => m !! "best_of") Heq) as H7.
  clear Heq.
  change (Some (VStr prompt) = Some (VStr prompt')) in Hp.
  change (Some (stop_value stop) = Some (stop_value stop')) in Hs.
  change (Some (VStr (model_name self)) = Some (VStr (model_name self'))) in Hm.
  change (Some (VFloat (temperature self)) = Some (VFloat (temperature self'))) in H1.
  change (Some (VInt (max_tokens self)) = Some (VInt (max_tokens self'))) in H2.
  change (Some (VInt (top_p self)) = Some (VInt (top_p self'))) in H3.
  change (Some (VInt (frequency_penalty self)) = Some (VInt (frequency_penalty self'))) in H4.
  change (Some (VInt (presence_penalty self)) = Some (VInt (presence_penalty self'))) in H5.
  change (Some (VInt (n self)) = Some (VInt (n self'))) in H6.
  change (Some (VInt (best_of self)) = Some (VInt (best_of self'))) in H7.
  injection Hp as Hp. injection Hs as Hs. injection Hm as Hm.
  injection H1 as H1. injection H2 as H2. injection H3 as H3. injection H4 as H4.
  injection H5 as H5. injection H6 as H6. injection H7 as H7.
  split; [exact Hp|]. split; [by apply stop_value_inj|]. split; [exact Hm|].
  unfold _default_params. by rewrite H1, H2, H3, H4, H5, H6, H7.
Qed.

(** ** [FakeLLM] *)

(** X11. [FakeLLM] counts characters: a prompt cut to at most 10000
    characters is answered "bar", and a prompt that is answered "foo" is
    still answered "foo" when text is added in front of it or after it;
    the stop sequences play no role and the world is left as it is. *)
Theorem FakeLLM_counts_characters (self : FakeLLM) (prompt : string)
    (stop : option (list string)) (w : World) :
  (forall k, 0 <= k <= 10000 ->
     FakeLLM_call self (str_prefix k prompt) stop w = (Ok (VStr "bar"), w))
  /\ (FakeLLM_call self prompt stop w = (Ok (VStr "foo"), w) ->
      forall more,
        FakeLLM_call self (prompt ++ more) stop w = (Ok (VStr "foo"), w)
        /\ FakeLLM_call self (more ++ prompt) stop w = (Ok (VStr "foo"), w)).
Proof.
  split.
  - intros k Hk. rewrite FakeLLM_call_eq.
    destruct (str_prefix_spec k prompt) as [_ Hlen]; [lia|].
    assert (Hle : (10000 <? len (str_prefix k prompt))%Z = false).
    { apply Z.ltb_ge. lia. }
    by rewrite Hle.
  - rewrite FakeLLM_call_eq. intros Hfoo more.
    destruct (10000 <? len prompt)%Z eqn:Hlong; [|discriminate].
    apply Z.ltb_lt in Hlong. pose proof (len_nonneg more) as Hmore.
    rewrite !FakeLLM_call_eq, !len_append.
    assert (H1 : (10000 <? len prompt + len more)%Z = true) by (apply Z.ltb_lt; lia).
    assert (H2 : (10000 <? len more + len prompt)%Z = true) by (apply Z.ltb_lt; lia).
    by rewrite H1, H2.
Qed.

Lemma FakeLLM_counts_characters_witness :
  0 <= 4200 <= 10000 /\
  FakeLLM_call mkFakeLLM (str_prefix 4200 (str_mul "foo" 10000)) None world_ok
  = (Ok (VStr "bar"), world_ok).
Proof.
  split; [lia|].
  apply (proj1 (FakeLLM_counts_characters mkFakeLLM (str_mul "foo" 10000) None world_ok)).
  lia.
Defined.

Lemma request_identifies_call_witness :
  let self := mkOpenAI VCompletion "text-davinci-002" 0.7%float 256 1 0 0 1 1 in
  create_kwargs self "hi" None = create_kwargs self "hi" None /\
  ("hi" = "hi" /\ (None : option (list string)) = None
   /\ model_name self = model_name self
   /\ _default_params self = _default_params self).
Proof.
  intros self. split; [reflexivity|].
  exact (request_identifies_call self self "hi" "hi" None None eq_refl).
Defined.

(** ** The key *)

(** X12. The construction asks only whether [OPENAI_API_KEY] is in the
    environment: in two worlds that agree on that and on the installed
    package it has the same outcome, whatever the value of the key (the
    empty string included) and whatever else the environment holds. *)
Theorem only_key_presence_matters {V : Validators} (kwargs : gmap string pyval)
    (w1 w2 : World) :
  (is_Some (environ w1 !! "OPENAI_API_KEY") <-> is_Some (environ w2 !! "OPENAI_API_KEY")) ->
  openai_installed w1 = openai_installed w2 ->
  fst (OpenAI_init kwargs w1) = fst (OpenAI_init kwargs w2).
Proof.
  intros Hkey Hinst. rewrite !init_outcome. cbn [fst].
  assert (Hroot : root_errors w1 = root_errors w2).
  { unfold root_errors. rewrite Hinst.
    destruct (environ w1 !! "OPENAI_API_KEY") as [k1|],
             (environ w2 !! "OPENAI_API_KEY") as [k2|]; try reflexivity.
    - destruct (proj1 Hkey) as [x Hx]; [eauto | discriminate].
    - destruct (proj2 Hkey) as [x Hx]; [eauto | discriminate]. }
  by rewrite Hroot.
Qed.

Lemma only_key_presence_matters_witness :
  (is_Some (environ world_ok !! "OPENAI_API_KEY")
   <-> is_Some (environ world_empty_key !! "OPENAI_API_KEY")) /\
  openai_installed world_ok = openai_installed world_empty_key /\
  fst (@OpenAI_init exact_validators ∅ world_ok)
  = fst (@OpenAI_init exact_validators ∅ world_empty_key).
Proof.
  assert (Hkey : is_Some (environ world_ok !! "OPENAI_API_KEY")
                 <-> is_Some (environ world_empty_key !! "OPENAI_API_KEY")).
  { split; intros _; eexists; reflexivity. }
  split; [exact Hkey|]. split; [reflexivity|].
  exact (@only_key_presence_matters exact_validators ∅ world_ok world_empty_key
           Hkey eq_refl).
Defined.

(** * The tests of the chain *)

Lemma eq_str_true (v : pyval) (s : string) : eq_str v s = true <-> v = VStr s.
Proof.
  destruct v; cbn; try (split; intros; discriminate).
  rewrite bool_decide_eq_true. split; [by intros -> | by intros [= ->]].
Qed.

Lemma occurs_in_len (part s : string) : occurs_in part s -> len part <= len s.
Proof.
  intros (pre & post & ->). rewrite !len_append.
  pose proof (len_nonneg pre). pose proof (len_nonneg post). lia.
Qed.

(** What [FakeLLM] answers is "bar" exactly for at most 10000 characters. *)
Lemma FakeLLM_bar_iff (self : FakeLLM) prompt stop w :
  fst (FakeLLM_call self prompt stop w) = Ok (VStr "bar") <-> len prompt <= 10000.
Proof.
  rewrite FakeLLM_call_eq. cbn [fst].
  destruct (10000 <? len prompt)%Z eqn:Hlt.
  - apply Z.ltb_lt in Hlt. split; [discriminate | lia].
  - apply Z.ltb_ge in Hlt. split; [done | reflexivity].
Qed.

(** A test holds exactly when [run] returned the [str] "bar". *)
Lemma assertion_holds_iff (r : result pyval * World) :
  fst (let (o, w') := r in
       match o with
       | Ok output => ret (eq_str output "bar") w'
       | Raise e => (Raise e, w')
       end) = Ok true
  <-> fst r = Ok (VStr "bar").
Proof.
  destruct r as [[output|e] w']; cbn.
  - split.
    + intros [= Heq]. apply eq_str_true in Heq. by subst.
    + intros [= ->]. reflexivity.
  - split; discriminate.
Qed.

Lemma test_proper_inputs_iff run w :
  fst (test_proper_inputs run w) = Ok true
  <-> fst (run (NatBotChain_default mkFakeLLM "testing")
             (str_mul "foo" 10000) (str_mul "foo" 10000) w) = Ok (VStr "bar").
Proof. unfold test_proper_inputs, bind. apply assertion_holds_iff. Qed.

Lemma test_variable_key_naming_iff run w :
  fst (test_variable_key_naming run w) = Ok true
  <-> fst (run (mkNatBotChain mkFakeLLM "testing" "u" "b" "c") "foo" "foo" w)
      = Ok (VStr "bar").
Proof. unfold test_variable_key_naming, bind. apply assertion_holds_iff. Qed.

(** A test does not hold when [run] returns a mapping. *)
Lemma assertion_fails_on_mapping (r : result pyval * World) (d : gmap string pyval) :
  fst r = Ok (VDict d) ->
  fst (let (o, w') := r in
       match o with
       | Ok output => ret (eq_str output "bar") w'
       | Raise e => (Raise e, w')
       end) = Ok false.
Proof. destruct r as [[output|e] w']; cbn; intros [= ->]. reflexivity. Qed.




(** The test over a [run] whose result is the answer of [FakeLLM] to a
    prompt. *)
Lemma test_proper_inputs_prompt run w prompt :
  run (NatBotChain_default mkFakeLLM "testing")
    (str_mul "foo" 10000) (str_mul "foo" 10000) w
  = FakeLLM_call mkFakeLLM prompt None w ->
  fst (test_proper_inputs run w) = Ok true ->
  len prompt <= 10000.
Proof.
  intros Hrun Htest. apply test_proper_inputs_iff in Htest.
  rewrite Hrun in Htest. by apply FakeLLM_bar_iff in Htest.
Qed.

Lemma len_test_input : len (str_mul "foo" 10000) = 30000.
Proof. rewrite len_str_mul by lia. reflexivity. Qed.






